(** * Visual rendering of local files: a shallow embedding

    Embedding of [core/visual_rendering.py] ([_resize_if_needed],
    [render_image], [convert_pdf_to_images], [render_document_page],
    [convert_html_to_pdf]) and of [system/local_tools.py]
    ([get_local_file_visual]).

    Modelling choices:
    - Python exceptions are values [Exn msg] ([msg] is [str(e)]); every
      function that may raise runs in a writer/exception monad [M] whose log
      records each call made to an external capability (Pillow, pdf2image,
      the file system reader, WeasyPrint), so that "this capability is not
      invoked" is a statement about the log.
    - The external libraries are the fields of a record [caps]; a theorem
      about all [caps] holds whatever those libraries do.
    - Decoded bitmaps have positive width and height (Pillow's [ImageFile]
      refuses to identify an image with a non-positive size); pixels are
      opaque: a bitmap is either a decoded one or the resampling of another.
    - Python's float division in [Image.thumbnail] is modelled by exact
      rational arithmetic ([Q]).
    - Strings are ASCII strings; [str.upper]/[str.lower] act on ASCII letters. *)

From Stdlib Require Import ZArith QArith Qround Qabs String Ascii List Bool Lia.
Import ListNotations.

Local Open Scope Z_scope.

(** ** Values *)

Definition bytes := list Byte.byte.

(** A Python exception, represented by its [str(e)]. *)
Inductive exn := Exn (msg : string).

Definition exn_msg (e : exn) : string := match e with Exn m => m end.

(** [Union[bytes, str]]: the input of [render_image] and of the PDF helpers. *)
Inductive source :=
| SrcBytes (b : bytes)
| SrcPath (p : string).

(** A PIL image: a decoded one, or the resampling of another one to a new
    size ([Image.resize] inside [Image.thumbnail]). *)
Inductive bitmap :=
| Decoded (id : nat) (w h : positive)
| Resampled (src : bitmap) (w h : positive).

Definition width (b : bitmap) : Z :=
  match b with Decoded _ w _ | Resampled _ w _ => Zpos w end.
Definition height (b : bitmap) : Z :=
  match b with Decoded _ _ h | Resampled _ _ h => Zpos h end.

(** An element of the returned list: an [ImageContent] built by
    [Image(data=..., format=...).to_image_content()], or a plain string. *)
Inductive content :=
| CImage (data : bytes) (format : string)
| CText (s : string).

(** Calls made to external capabilities. *)
Inductive event :=
| EvOpen (src : source)
| EvSave (fmt : string)
| EvPdfInfo (src : source)
| EvRasterize (src : source) (first_page last_page : option Z) (fmt : string)
| EvReadText (path : string)
| EvHtmlToPdf (html : string).

(** ** The writer/exception monad *)

Definition result (A : Type) := (exn + A)%type.
Definition M (A : Type) := (list event * result A)%type.

Definition ret {A} (a : A) : M A := ([], inr a).
Definition raise {A} (e : exn) : M A := ([], inl e).

Definition bind {A B} (m : M A) (f : A -> M B) : M B :=
  let (l1, r) := m in
  match r with
  | inl e => (l1, inl e)
  | inr a => let (l2, r2) := f a in (app l1 l2, r2)
  end.

(** [try: m  except Exception as e: h(e)] *)
Definition catch {A} (m : M A) (h : exn -> M A) : M A :=
  let (l1, r) := m in
  match r with
  | inl e => let (l2, r2) := h e in (app l1 l2, r2)
  | inr a => (l1, inr a)
  end.

(** A call to an external capability: logged, and its outcome. *)
Definition call {A} (ev : event) (r : result A) : M A := ([ev], r).

(** A pure computation that may raise. *)
Definition lift {A} (r : result A) : M A := ([], r).

Notation "x <- m ;; k" := (bind m (fun x => k))
  (at level 61, m at next level, right associativity).

(** ** Python helpers on strings and integers *)

Local Open Scope string_scope.
Local Open Scope Z_scope.

(** [str(n)] for a non-negative integer: its decimal digits. *)
Fixpoint digits_aux (fuel : nat) (n : N) (acc : string) : string :=
  match fuel with
  | O => acc
  | S f =>
      let acc' := String (ascii_of_N (48 + N.modulo n 10)) acc in
      if N.ltb n 10 then acc' else digits_aux f (N.div n 10) acc'
  end.

Definition str_N (n : N) : string := digits_aux (S (N.size_nat n)) n "".

(** [str(z)] for a Python [int]. *)
Definition str_Z (z : Z) : string :=
  match z with
  | Zneg p => "-" ++ str_N (Npos p)
  | _ => str_N (Z.to_N z)
  end.

Definition ascii_upper (c : ascii) : ascii :=
  let n := N_of_ascii c in
  if andb (N.leb 97 n) (N.leb n 122) then ascii_of_N (n - 32) else c.

Definition ascii_lower (c : ascii) : ascii :=
  let n := N_of_ascii c in
  if andb (N.leb 65 n) (N.leb n 90) then ascii_of_N (n + 32) else c.

Fixpoint map_string (f : ascii -> ascii) (s : string) : string :=
  match s with
  | EmptyString => EmptyString
  | String c s' => String (f c) (map_string f s')
  end.

(** [s.upper()] and [s.lower()] *)
Definition upper (s : string) : string := map_string ascii_upper s.
Definition lower (s : string) : string := map_string ascii_lower s.

(** [needle in hay] *)
Fixpoint contains (needle hay : string) : bool :=
  if String.prefix needle hay then true
  else match hay with
       | EmptyString => false
       | String _ hay' => contains needle hay'
       end.

(** [s.split(c)] for a one-character separator. *)
Fixpoint split_aux (c : ascii) (s cur : string) : list string :=
  match s with
  | EmptyString => [cur]
  | String a s' =>
      if Ascii.eqb a c then cur :: split_aux c s' ""
      else split_aux c s' (cur ++ String a "")
  end.

Definition split (c : ascii) (s : string) : list string := split_aux c s "".

(** [xs[-1]] on the (never empty) result of [split]. *)
Definition last_item (xs : list string) : string := last xs "".

(** Truthiness of an [int] or [None] argument ([if first_page:]). *)
Definition truthy (o : option Z) : bool :=
  match o with Some z => negb (Z.eqb z 0) | None => false end.

(** ** External capabilities *)

Record caps := {
  (** [os.path.exists], [os.path.isfile]: they never raise. *)
  c_exists : string -> bool;
  c_isfile : string -> bool;
  (** [mimetypes.guess_type(path)[0]] *)
  c_guess_type : string -> option string;
  (** [PILImage.open(path)] / [PILImage.open(io.BytesIO(data))] *)
  c_open : source -> result bitmap;
  (** [img.save(buffered, format=fmt)]; [buffered.getvalue()] *)
  c_save : bitmap -> string -> result bytes;
  (** [pdfinfo_from_path] / [pdfinfo_from_bytes], then [.get("Pages")] *)
  c_pdfinfo : source -> result (option Z);
  (** [convert_from_path] / [convert_from_bytes] with the optional
      [first_page], [last_page] keyword arguments and [fmt] *)
  c_rasterize : source -> option Z -> option Z -> string -> result (list bitmap);
  (** [open(path, "r", encoding="utf-8").read()] *)
  c_read_text : string -> result string;
  (** [weasyprint.HTML(string=...).write_pdf(presentational_hints=True)],
      including the [ImportError] when WeasyPrint is missing *)
  c_html_to_pdf : string -> result bytes
}.

(** ** [Image.thumbnail] (Pillow >= 9.1) *)

(** [round_aspect(number, key)]:
    [max(min(math.floor(number), math.ceil(number), key=key), 1)];
    [min] keeps its first argument unless the second has a smaller key. *)
Definition round_aspect (number : Q) (key : Z -> Q) : Z :=
  let f := Qfloor number in
  let c := Qceiling number in
  Z.max (if negb (Qle_bool (key f) (key c)) then c else f) 1.

(** [preserve_aspect_ratio()] for [provided_size = (x, y)]: [None] when the
    image already fits. *)
Definition preserve_aspect_ratio (w h x y : Z) : result (option (Z * Z)) :=
  if andb (w <=? x) (h <=? y) then inr None
  else if y =? 0 then inl (Exn "division by zero")
  else
    let aspect := (inject_Z w / inject_Z h)%Q in
    if Qle_bool aspect (inject_Z x / inject_Z y)%Q then
      inr (Some (round_aspect (inject_Z y * aspect)%Q
                   (fun n => Qabs (aspect - inject_Z n / inject_Z y)%Q), y))
    else
      inr (Some (x, round_aspect (inject_Z x / aspect)%Q
                      (fun n => if n =? 0 then 0%Q
                                else Qabs (aspect - inject_Z x / inject_Z n)%Q))).

(** [Image.resize(size)]: the C core refuses a size below 1. *)
Definition resize (img : bitmap) (x y : Z) : result bitmap :=
  match x, y with
  | Zpos px, Zpos py => inr (Resampled img px py)
  | _, _ => inl (Exn "height and width must be > 0")
  end.

(** [image.thumbnail((max_dim, max_dim), LANCZOS)]; the image is updated in
    place and [_resize_if_needed] returns it, so we return the new value. *)
Definition thumbnail (img : bitmap) (max_dim : Z) : result bitmap :=
  match preserve_aspect_ratio (width img) (height img) max_dim max_dim with
  | inl e => inl e
  | inr None => inr img
  | inr (Some (x, y)) =>
      if andb (x =? width img) (y =? height img) then inr img
      else resize img x y
  end.

(** [_resize_if_needed(image, max_dim)] *)
Definition _resize_if_needed (img : bitmap) (max_dim : option Z) : result bitmap :=
  if negb (truthy max_dim) then inr img
  else
    match max_dim with
    | None => inr img
    | Some d =>
        if Z.max (width img) (height img) <=? d then inr img
        else thumbnail img d
    end.

Section Rendering.

Variable k : caps.

(** ** [render_image] *)

(** The [fmt] computed by [render_image]. *)
Definition image_format (image_input : source) (mime_type : string) : string :=
  match image_input with
  | SrcBytes _ =>
      if contains "/" mime_type then
        let fmt := upper (last_item (split "/" mime_type)) in
        if String.eqb fmt "JPG" then "JPEG" else fmt
      else "PNG"
  | SrcPath _ => "PNG"
  end.

Definition render_image (image_input : source) (mime_type : string)
    (max_dimension : option Z) : M (list content) :=
  catch
    (pil_img <- call (EvOpen image_input) (k.(c_open) image_input) ;;
     pil_img <- lift (_resize_if_needed pil_img max_dimension) ;;
     let fmt := image_format image_input mime_type in
     img_bytes <- call (EvSave fmt) (k.(c_save) pil_img fmt) ;;
     ret [CImage img_bytes (lower fmt)])
    (fun e => ret [CText ("Error rendering image: " ++ exn_msg e)]).

(** ** [convert_html_to_pdf] (awaited; run sequentially here) *)

Definition convert_html_to_pdf (html_content : string) : M bytes :=
  call (EvHtmlToPdf html_content) (k.(c_html_to_pdf) html_content).

(** ** [convert_pdf_to_images] *)

Definition convert_pdf_to_images (pdf_input : source)
    (first_page last_page : option Z) (fmt : string) : M (list bitmap) :=
  catch
    (let fp := if truthy first_page then first_page else None in
     let lp := if truthy last_page then last_page else None in
     call (EvRasterize pdf_input fp lp fmt) (k.(c_rasterize) pdf_input fp lp fmt))
    (fun e => raise (Exn ("Failed to convert PDF to Image: " ++ exn_msg e))).

(** ** [render_document_page] *)

Definition footer_text (page_number total_pages : Z) : string :=
  let base := "Displaying Page " ++ str_Z page_number ++ " of "
              ++ str_Z total_pages ++ "." in
  if page_number <? total_pages then
    base ++ " Call this tool again with page_number="
         ++ str_Z (page_number + 1) ++ " to see the next page."
  else base.

Definition page_error (page_number total_pages : Z) : string :=
  "Error: Page " ++ str_Z page_number ++ " does not exist. The document has "
  ++ str_Z total_pages ++ " pages.".

Definition empty_error (page_number : Z) : string :=
  "Error: Could not render page " ++ str_Z page_number
  ++ ". The document might be empty or invalid.".

(** [int(info.get("Pages", 0))] *)
Definition pages_total (info : option Z) : Z :=
  match info with Some n => n | None => 0 end.

(** The body of the [try] block of [render_document_page]. *)
Definition render_document_page_body (pdf_input : source) (page_number : Z)
    (max_dimension : option Z) : M (list content) :=
  info <- call (EvPdfInfo pdf_input) (k.(c_pdfinfo) pdf_input) ;;
  let total_pages := pages_total info in
  if total_pages <? page_number then
    ret [CText (page_error page_number total_pages)]
  else
    images <- convert_pdf_to_images pdf_input (Some page_number)
                (Some page_number) "png" ;;
    match images with
    | [] => ret [CText (empty_error page_number)]
    | first :: _ =>
        image <- lift (_resize_if_needed first max_dimension) ;;
        img_bytes <- call (EvSave "PNG") (k.(c_save) image "PNG") ;;
        ret [CImage img_bytes "png"; CText (footer_text page_number total_pages)]
    end.

Definition render_document_page (pdf_input : source) (page_number : Z)
    (max_dimension : option Z) : M (list content) :=
  catch (render_document_page_body pdf_input page_number max_dimension)
    (fun e => ret [CText ("Error rendering document: " ++ exn_msg e)]).

(** ** [get_local_file_visual] *)

(** The MIME type [get_local_file_visual] dispatches on. *)
Definition mime_of (path : string) : string :=
  match k.(c_guess_type) path with
  | Some m => if String.eqb m "" then "application/octet-stream" else m
  | None => "application/octet-stream"
  end.

Definition get_local_file_visual (path : string) (page_number : Z)
    (max_dimension : option Z) : M (list content) :=
  if negb (k.(c_exists) path) then ret [CText ("Error: File not found at " ++ path)]
  else if negb (k.(c_isfile) path) then ret [CText ("Error: Path is not a file: " ++ path)]
  else
    let mime_type := mime_of path in
    catch
      (if String.prefix "image/" mime_type then
         render_image (SrcPath path) "image/png" max_dimension
       else if String.eqb mime_type "application/pdf" then
         render_document_page (SrcPath path) page_number max_dimension
       else if String.eqb mime_type "text/html" then
         catch
           (html_content <- call (EvReadText path) (k.(c_read_text) path) ;;
            pdf_bytes <- convert_html_to_pdf html_content ;;
            render_document_page (SrcBytes pdf_bytes) page_number max_dimension)
           (fun e => ret [CText ("Error rendering HTML file: " ++ exn_msg e)])
       else
         ret [CText ("Error: Unsupported file type '" ++ mime_type
                     ++ "'. Only PDF, Images, and HTML are supported for visual inspection.")])
      (fun e => ret [CText ("Error reading file: " ++ exn_msg e)]).

End Rendering.

(** ** A concrete environment, used by the examples and witnesses *)

(** A three-page A4-like PDF at ["/tmp/report.pdf"], a photo at
    ["/tmp/photo.jpg"], a page of HTML at ["/tmp/page.html"], a directory
    ["/tmp"] and an archive ["/tmp/a.zip"]. *)
Definition page_bitmap (n : Z) : bitmap := Decoded (Z.to_nat n) 1700 2200.

Definition demo_caps : caps := {|
  c_exists := fun p => existsb (String.eqb p)
                 ["/tmp"; "/tmp/report.pdf"; "/tmp/photo.jpg"; "/tmp/page.html"; "/tmp/a.zip"];
  c_isfile := fun p => negb (String.eqb p "/tmp");
  c_guess_type := fun p =>
    if String.eqb p "/tmp/report.pdf" then Some "application/pdf"
    else if String.eqb p "/tmp/photo.jpg" then Some "image/jpeg"
    else if String.eqb p "/tmp/page.html" then Some "text/html"
    else if String.eqb p "/tmp/a.zip" then Some "application/zip"
    else None;
  c_open := fun _ => inr (Decoded 0 4000 3000);
  c_save := fun _ fmt =>
    if existsb (String.eqb fmt) ["PNG"; "JPEG"; "GIF"; "WEBP"] then inr [Byte.x89]
    else inl (Exn fmt);
  c_pdfinfo := fun src =>
    match src with SrcPath _ => inr (Some 3) | SrcBytes _ => inr (Some 1) end;
  c_rasterize := fun src fp lp _ =>
    let total := match src with SrcPath _ => 3 | SrcBytes _ => 1 end in
    let first := match fp with Some f => Z.max f 1 | None => 1 end in
    let last := match lp with Some l => Z.min l total | None => total end in
    inr (map page_bitmap (map Z.of_nat
           (seq (Z.to_nat first) (Z.to_nat (last - first + 1)))));
  c_read_text := fun _ => inr "<p>hello</p>";
  c_html_to_pdf := fun _ => inr [Byte.x25]
|}.

(** The same environment, with a PDF whose rasterization yields no image. *)
Definition blank_caps : caps := {|
  c_exists := demo_caps.(c_exists); c_isfile := demo_caps.(c_isfile);
  c_guess_type := demo_caps.(c_guess_type); c_open := demo_caps.(c_open);
  c_save := demo_caps.(c_save); c_pdfinfo := demo_caps.(c_pdfinfo);
  c_rasterize := fun _ _ _ _ => inr [];
  c_read_text := demo_caps.(c_read_text);
  c_html_to_pdf := demo_caps.(c_html_to_pdf)
|}.

(** An environment whose capabilities fail on some inputs: a PDF whose page
    count cannot be read, rasterization of PDF bytes failing, the encoder
    failing on page 2, an undecodable byte buffer, an HTML file that is not
    UTF-8, and HTML markup WeasyPrint cannot typeset. *)
Definition failing_caps : caps := {|
  c_exists := fun _ => true;
  c_isfile := fun _ => true;
  c_guess_type := fun p =>
    if String.eqb p "/tmp/report.pdf" then Some "application/pdf"
    else if String.eqb p "/tmp/photo.png" then Some "image/png"
    else Some "text/html";
  c_open := fun src =>
    match src with
    | SrcBytes [] => inl (Exn "cannot identify image file")
    | _ => inr (Decoded 0 4000 3000)
    end;
  c_save := fun img _ =>
    match img with
    | Decoded 2 _ _ => inl (Exn "disk full")
    | _ => inr [Byte.x89]
    end;
  c_pdfinfo := fun src =>
    match src with
    | SrcPath p => if String.eqb p "/tmp/broken.pdf"
                   then inl (Exn "Syntax Error") else inr (Some 3)
    | SrcBytes _ => inr (Some 3)
    end;
  c_rasterize := fun src fp _ _ =>
    match src, fp with
    | SrcBytes _, _ => inl (Exn "poppler crashed")
    | SrcPath _, Some n => inr [page_bitmap n]
    | SrcPath _, None => inr [page_bitmap 1; page_bitmap 2; page_bitmap 3]
    end;
  c_read_text := fun p =>
    if String.eqb p "/tmp/latin1.html"
    then inl (Exn "'utf-8' codec can't decode byte 0xe9") else inr "<bad>";
  c_html_to_pdf := fun _ => inl (Exn "weasyprint is required for PDF rendering.")
|}.

(** A PDF whose page count is missing. *)
Definition countless_caps : caps := {|
  c_exists := fun _ => true;
  c_isfile := fun _ => true;
  c_guess_type := fun _ => Some "application/pdf";
  c_open := fun _ => inr (Decoded 0 1 1);
  c_save := fun _ _ => inr [Byte.x89];
  c_pdfinfo := fun _ => inr None;
  c_rasterize := fun _ _ _ _ => inr [page_bitmap 1];
  c_read_text := fun _ => inr "";
  c_html_to_pdf := fun _ => inr []
|}.

Example str_Z_ex : (str_Z 0, str_Z 7, str_Z 120, str_Z (-45)) = ("0", "7", "120", "-45").
Proof. reflexivity. Qed.

Example split_ex : last_item (split "/" "image/svg+xml") = "svg+xml".
Proof. reflexivity. Qed.

Example image_format_ex :
  (image_format (SrcBytes []) "image/jpg", image_format (SrcBytes []) "image/webp",
   image_format (SrcPath "/tmp/photo.jpg") "image/jpeg") = ("JPEG", "WEBP", "PNG").
Proof. reflexivity. Qed.

Example thumbnail_ex :
  (_resize_if_needed (Decoded 0 1000 500) (Some 100),
   _resize_if_needed (Decoded 0 333 1000) (Some 100),
   _resize_if_needed (Decoded 0 1000 500) (Some 0),
   _resize_if_needed (Decoded 0 1000 500) (Some (-1)))
  = (inr (Resampled (Decoded 0 1000 500) 100 50),
     inr (Resampled (Decoded 0 333 1000) 33 100),
     inr (Decoded 0 1000 500),
     inl (Exn "height and width must be > 0")).
Proof. reflexivity. Qed.

Example render_pdf_ex :
  render_document_page demo_caps (SrcPath "/tmp/report.pdf") 2 None
  = ([EvPdfInfo (SrcPath "/tmp/report.pdf");
      EvRasterize (SrcPath "/tmp/report.pdf") (Some 2) (Some 2) "png"; EvSave "PNG"],
     inr [CImage [Byte.x89] "png";
          CText "Displaying Page 2 of 3. Call this tool again with page_number=3 to see the next page."]).
Proof. reflexivity. Qed.

Example render_pdf_zero_ex :
  snd (render_document_page demo_caps (SrcPath "/tmp/report.pdf") 0 None)
  = inr [CImage [Byte.x89] "png";
         CText "Displaying Page 0 of 3. Call this tool again with page_number=1 to see the next page."].
Proof. reflexivity. Qed.

Example local_visual_ex :
  (snd (get_local_file_visual demo_caps "/nope" 1 None),
   snd (get_local_file_visual demo_caps "/tmp" 1 None),
   snd (get_local_file_visual demo_caps "/tmp/a.zip" 1 None),
   snd (get_local_file_visual demo_caps "/tmp/page.html" 1 None),
   snd (get_local_file_visual demo_caps "/tmp/photo.jpg" 1 (Some 800)))
  = (inr [CText "Error: File not found at /nope"],
     inr [CText "Error: Path is not a file: /tmp"],
     inr [CText "Error: Unsupported file type 'application/zip'. Only PDF, Images, and HTML are supported for visual inspection."],
     inr [CImage [Byte.x89] "png"; CText "Displaying Page 1 of 1."],
     inr [CImage [Byte.x89] "png"]).
Proof. reflexivity. Qed.

(** ** The resizer *)

Lemma width_pos (img : bitmap) : exists p, width img = Zpos p.
Proof. destruct img; simpl; eauto. Qed.

Lemma height_pos (img : bitmap) : exists p, height img = Zpos p.
Proof. destruct img; simpl; eauto. Qed.

(** [round_aspect] picks the floor or the ceiling of [number] (at least 1),
    so it is less than one away from a positive [number]. *)
Lemma round_aspect_bounds (q : Q) (key : Z -> Q) :
  (0 < q)%Q ->
  (1 <= round_aspect q key)%Z /\
  (inject_Z (round_aspect q key - 1) < q)%Q /\
  (q < inject_Z (round_aspect q key + 1))%Q.
Proof.
  intros Hq. unfold round_aspect.
  pose proof (Qfloor_le q) as F1. pose proof (Qlt_floor q) as F2.
  pose proof (Qle_ceiling q) as C1. pose proof (Qceiling_lt q) as C2.
  set (f := Qfloor q) in *. set (c := Qceiling q) in *.
  assert (Hf : (0 < f + 1)%Z).
  { rewrite Zlt_Qlt. apply Qlt_trans with q; assumption. }
  assert (Hc : (0 < c)%Z).
  { rewrite Zlt_Qlt. apply Qlt_le_trans with q; assumption. }
  destruct (negb (Qle_bool (key f) (key c))).
  - rewrite Z.max_l by lia. split; [lia | split; [exact C2 |]].
    apply Qle_lt_trans with (inject_Z c); [exact C1 |].
    rewrite <- Zlt_Qlt. lia.
  - destruct (Z.le_gt_cases 1 f) as [H1 | H1].
    + rewrite Z.max_l by lia. split; [lia | split; [| exact F2]].
      apply Qlt_le_trans with (inject_Z f); [| exact F1].
      rewrite <- Zlt_Qlt. lia.
    + assert (f = 0)%Z as Hf0 by lia. rewrite Hf0 in F2 |- *.
      simpl. split; [lia | split; [exact Hq |]].
      apply Qlt_trans with (inject_Z 1); [exact F2 |].
      rewrite <- Zlt_Qlt. lia.
Qed.

Lemma inject_Z_pos_nonzero (p : positive) : ~ (inject_Z (Zpos p) == 0)%Q.
Proof. unfold Qeq; simpl; lia. Qed.

(** The same bounds, for [number = num / den], read back in integers. *)
Lemma round_aspect_scaled (q : Q) (key : Z -> Q) (num : Z) (den : positive) :
  (q == inject_Z num / inject_Z (Zpos den))%Q -> (0 < num)%Z ->
  (1 <= round_aspect q key)%Z /\
  ((round_aspect q key - 1) * Zpos den < num)%Z /\
  (num < (round_aspect q key + 1) * Zpos den)%Z.
Proof.
  intros Hq Hn.
  assert (Hq0 : (0 < q)%Q).
  { rewrite Hq. unfold Qlt, Qdiv, Qmult, Qinv, inject_Z; simpl; lia. }
  assert (E : (q * inject_Z (Zpos den) == inject_Z num)%Q).
  { rewrite Hq. field. apply inject_Z_pos_nonzero. }
  assert (Hd : (0 < inject_Z (Zpos den))%Q).
  { unfold Qlt; simpl; lia. }
  destruct (round_aspect_bounds q key Hq0) as (H1 & H2 & H3).
  split; [exact H1 | split].
  - rewrite Zlt_Qlt, inject_Z_mult, <- E.
    apply Qmult_lt_compat_r; assumption.
  - rewrite Zlt_Qlt, inject_Z_mult, <- E.
    apply Qmult_lt_compat_r; assumption.
Qed.

(** The two branches of [preserve_aspect_ratio] when downscaling. *)
Ltac height_branch pw ph pd :=
  let x := fresh "x" in
  let px := fresh "px" in
  assert (Zpos pw <= Zpos ph) by nia;
  rewrite Z.max_r in * by lia;
  match goal with |- context [round_aspect ?q ?key] =>
    destruct (round_aspect_scaled q key (Zpos pd * Zpos pw) ph) as (R1 & R2 & R3);
    [rewrite inject_Z_mult; field; apply inject_Z_pos_nonzero | lia |];
    set (x := round_aspect q key) in * end;
  replace (Zpos pd =? Zpos ph) with false by (symmetry; apply Z.eqb_neq; lia);
  rewrite andb_false_r;
  destruct x as [|px|]; try lia; simpl;
  eexists; split; [reflexivity |]; cbn [width height];
  rewrite Z.max_r by nia;
  split; [reflexivity | split; [apply Z.abs_lt; nia | rewrite Z.abs_lt; nia]].

Ltac width_branch pw ph pd :=
  let y := fresh "y" in
  let py := fresh "py" in
  assert (Zpos ph < Zpos pw) by nia;
  rewrite Z.max_l in * by lia;
  match goal with |- context [round_aspect ?q ?key] =>
    destruct (round_aspect_scaled q key (Zpos pd * Zpos ph) pw) as (R1 & R2 & R3);
    [rewrite inject_Z_mult; field; split; apply inject_Z_pos_nonzero | lia |];
    set (y := round_aspect q key) in * end;
  replace (Zpos pd =? Zpos pw) with false by (symmetry; apply Z.eqb_neq; lia);
  rewrite andb_false_l;
  destruct y as [|py|]; try lia; simpl;
  eexists; split; [reflexivity |]; cbn [width height];
  rewrite Z.max_l by nia;
  split; [reflexivity | split; [rewrite Z.abs_lt; nia | apply Z.abs_lt; nia]].

(** Downscaling: the larger side becomes [d], the other one is within one
    pixel of its exact scaled length. *)
Lemma thumbnail_down (img : bitmap) (d : Z) :
  0 < d -> d < Z.max (width img) (height img) ->
  exists img', thumbnail img d = inr img' /\
    Z.max (width img') (height img') = d /\
    Z.abs (width img' * Z.max (width img) (height img) - width img * d)
      < Z.max (width img) (height img) /\
    Z.abs (height img' * Z.max (width img) (height img) - height img * d)
      < Z.max (width img) (height img).
Proof.
  intros Hd Hmax.
  destruct (width_pos img) as [pw Hw]. destruct (height_pos img) as [ph Hh].
  destruct d as [|pd|]; try lia.
  unfold thumbnail, preserve_aspect_ratio. rewrite Hw, Hh in *.
  destruct (Z.leb_spec (Zpos pw) (Zpos pd)), (Z.leb_spec (Zpos ph) (Zpos pd));
    try lia; simpl andb; cbv iota;
    change (Zpos pd =? 0) with false; cbv iota.
  all: destruct (Qle_bool _ _) eqn:EQ.
  all: try (apply Qle_bool_iff in EQ).
  all: try (assert (EQ' : ~ (inject_Z (Zpos pw) / inject_Z (Zpos ph)
                              <= inject_Z (Zpos pd) / inject_Z (Zpos pd))%Q)
              by (intro X; apply Qle_bool_iff in X; congruence); clear EQ;
            rename EQ' into EQ).
  all: unfold Qle, Qdiv, Qmult, Qinv, inject_Z in EQ; simpl in EQ.
  all: rewrite ?Pos.mul_1_r, ?Pos2Z.inj_mul in EQ.
  all: try (exfalso; nia).
  1, 3: height_branch pw ph pd.
  all: width_branch pw ph pd.
Qed.

(** C4: [_resize_if_needed] returns the bitmap unchanged when the bound is
    absent or already met (no upscaling), and for a positive bound smaller
    than the larger side it returns a bitmap whose larger side is exactly the
    bound and whose sides are each within one pixel of the exact scaling of
    the original by [bound / max(width, height)] (aspect ratio preserved). *)
Theorem resize_if_needed_spec :
  (forall (img : bitmap) (max_dim : option Z),
     (max_dim = None \/
      exists d, max_dim = Some d /\ Z.max (width img) (height img) <= d) ->
     _resize_if_needed img max_dim = inr img) /\
  (forall (img : bitmap) (d : Z),
     0 < d -> d < Z.max (width img) (height img) ->
     exists img', _resize_if_needed img (Some d) = inr img' /\
       Z.max (width img') (height img') = d /\
       Z.abs (width img' * Z.max (width img) (height img) - width img * d)
         < Z.max (width img) (height img) /\
       Z.abs (height img' * Z.max (width img) (height img) - height img * d)
         < Z.max (width img) (height img)).
Proof.
  split.
  - intros img md [-> | (d & -> & Hle)]; [reflexivity |].
    unfold _resize_if_needed, truthy.
    destruct (Z.eqb_spec d 0); [reflexivity |]. simpl.
    apply Z.leb_le in Hle. rewrite Hle. reflexivity.
  - intros img d Hd Hlt.
    unfold _resize_if_needed, truthy.
    replace (d =? 0) with false by (symmetry; apply Z.eqb_neq; lia). simpl.
    replace (Z.max (width img) (height img) <=? d) with false
      by (symmetry; apply Z.leb_gt; lia).
    apply thumbnail_down; assumption.
Qed.

Lemma resize_if_needed_spec_witness :
  _resize_if_needed (Decoded 0 640 480) (Some 800) = inr (Decoded 0 640 480) /\
  exists img', _resize_if_needed (Decoded 0 4000 3000) (Some 1000) = inr img' /\
    Z.max (width img') (height img') = 1000.
Proof.
  split.
  - apply (proj1 resize_if_needed_spec). right. exists 800. split; [reflexivity | vm_compute; discriminate].
  - destruct (proj2 resize_if_needed_spec (Decoded 0 4000 3000) 1000) as (img' & H1 & H2 & _);
      [lia | vm_compute; reflexivity |].
    exists img'. split; assumption.
Defined.

(** C10: a zero [max_dimension] behaves exactly like an absent one: the
    bitmap is returned unchanged, and [render_image] and
    [render_document_page] do not resize. *)
Theorem max_dimension_zero_is_absent :
  forall (k : caps) (img : bitmap) (src pdf : source) (mime : string) (page : Z),
    _resize_if_needed img (Some 0) = inr img /\
    _resize_if_needed img None = inr img /\
    render_image k src mime (Some 0) = render_image k src mime None /\
    render_document_page k pdf page (Some 0) = render_document_page k pdf page None.
Proof.
  intros. repeat split; reflexivity.
Qed.

(** ** Strings *)

Lemma sappend_assoc (a b c : string) : (a ++ b) ++ c = a ++ (b ++ c).
Proof. induction a as [|x a IH]; simpl; [reflexivity | now rewrite IH]. Qed.

Lemma sappend_empty_r (a : string) : a ++ "" = a.
Proof. induction a as [|x a IH]; simpl; [reflexivity | now rewrite IH]. Qed.

Lemma prefix_app (a b : string) : String.prefix a (a ++ b) = true.
Proof.
  induction a as [|x a IH]; [destruct b; reflexivity |]. simpl.
  destruct (ascii_dec x x) as [_ | n]; [exact IH | now elim n].
Qed.

Lemma contains_unfold (needle hay : string) :
  contains needle hay =
  if String.prefix needle hay then true
  else match hay with EmptyString => false | String _ hay' => contains needle hay' end.
Proof. destruct hay; reflexivity. Qed.

Lemma contains_app_prefix (needle post : string) :
  contains needle (needle ++ post) = true.
Proof.
  rewrite contains_unfold, prefix_app. reflexivity.
Qed.

Lemma contains_app_l (needle pre s : string) :
  contains needle s = true -> contains needle (pre ++ s) = true.
Proof.
  intros H. induction pre as [|x pre IH]; [exact H |].
  simpl (String x pre ++ s). rewrite contains_unfold.
  destruct (String.prefix needle (String x (pre ++ s))); [reflexivity | exact IH].
Qed.

Lemma contains_middle (needle pre post : string) :
  contains needle (pre ++ needle ++ post) = true.
Proof. apply contains_app_l, contains_app_prefix. Qed.

(** ** The document pipeline *)

Lemma resize_valid (img : bitmap) (md : option Z) :
  (forall d, md = Some d -> 0 <= d) ->
  exists img', _resize_if_needed img md = inr img'.
Proof.
  intros Hmd. destruct md as [d|]; [| eexists; reflexivity].
  specialize (Hmd d eq_refl).
  unfold _resize_if_needed, truthy.
  destruct (Z.eqb_spec d 0); simpl; [eexists; reflexivity |].
  destruct (Z.leb_spec (Z.max (width img) (height img)) d); [eexists; reflexivity |].
  destruct (thumbnail_down img d) as (img' & E & _); [lia | lia |]. eauto.
Qed.

(** Evaluate the monadic plumbing and split on every outcome of the
    capabilities. *)
Ltac run_caps :=
  repeat (cbn [bind catch call lift ret raise fst snd app] in *;
          match goal with
          | |- context [match ?x with inl _ => _ | inr _ => _ end] =>
              let E := fresh "E" in destruct x eqn:E
          | |- context [match ?l with [] => _ | _ :: _ => _ end] =>
              let E := fresh "E" in destruct l eqn:E
          | |- context [if ?b then _ else _] =>
              let E := fresh "E" in destruct b eqn:E
          end);
  cbn [bind catch call lift ret raise fst snd app] in *.

(** The calls [render_document_page] makes: page count, then at most one
    rasterization, then at most one encoding. *)
Lemma render_document_page_log (k : caps) (src : source) (n : Z) (md : option Z) :
  let fp := if truthy (Some n) then Some n else None in
  fst (render_document_page k src n md) = [EvPdfInfo src] \/
  fst (render_document_page k src n md) = [EvPdfInfo src; EvRasterize src fp fp "png"] \/
  fst (render_document_page k src n md)
    = [EvPdfInfo src; EvRasterize src fp fp "png"; EvSave "PNG"].
Proof.
  intros fp. subst fp.
  unfold render_document_page, render_document_page_body, convert_pdf_to_images.
  run_caps; auto.
Qed.

(** C2: for an in-range page [1 <= n <= N] whose rasterization yields a
    bitmap (and whose PNG encoding succeeds, with an absent or non-negative
    bound), [render_document_page] returns exactly the image and the footer
    ["Displaying Page n of N."], followed by the continuation hint naming
    [n+1] if and only if [n < N]; for [n = N = 1] the footer is exactly
    ["Displaying Page 1 of 1."]. *)
Theorem render_document_page_footer (k : caps) (src : source) (n N : Z)
    (md : option Z) (b : bitmap) (rest : list bitmap) :
  k.(c_pdfinfo) src = inr (Some N) ->
  1 <= n <= N ->
  k.(c_rasterize) src (Some n) (Some n) "png" = inr (b :: rest) ->
  (forall d, md = Some d -> 0 <= d) ->
  (forall img, exists data, k.(c_save) img "PNG" = inr data) ->
  (exists img' data,
     _resize_if_needed b md = inr img' /\ k.(c_save) img' "PNG" = inr data /\
     snd (render_document_page k src n md)
       = inr [CImage data "png"; CText (footer_text n N)]) /\
  footer_text n N
    = ("Displaying Page " ++ str_Z n ++ " of " ++ str_Z N ++ ".")
      ++ (if n <? N
          then " Call this tool again with page_number=" ++ str_Z (n + 1)
               ++ " to see the next page."
          else "") /\
  (n = 1 -> N = 1 -> footer_text n N = "Displaying Page 1 of 1.").
Proof.
  intros Hinfo Hn Hras Hmd Hsave.
  split; [| split].
  - destruct (resize_valid b md Hmd) as [img' Hr].
    destruct (Hsave img') as [data Hs].
    exists img', data. split; [exact Hr | split; [exact Hs |]].
    unfold render_document_page, render_document_page_body, convert_pdf_to_images.
    cbn [bind catch call lift ret raise fst snd app].
    rewrite Hinfo. cbn [pages_total truthy].
    replace (N <? n) with false by (symmetry; apply Z.ltb_ge; lia).
    replace (n =? 0) with false by (symmetry; apply Z.eqb_neq; lia).
    cbn [negb]. rewrite Hras. cbn. rewrite Hr. cbn. rewrite Hs. reflexivity.
  - unfold footer_text. destruct (n <? N); [reflexivity |].
    rewrite sappend_empty_r. reflexivity.
  - intros -> ->. reflexivity.
Qed.

Lemma render_document_page_footer_witness :
  (exists img' data,
     _resize_if_needed (page_bitmap 2) None = inr img' /\
     demo_caps.(c_save) img' "PNG" = inr data /\
     snd (render_document_page demo_caps (SrcPath "/tmp/report.pdf") 2 None)
       = inr [CImage data "png"; CText (footer_text 2 3)]).
Proof.
  refine (proj1 (render_document_page_footer demo_caps (SrcPath "/tmp/report.pdf")
                   2 3 None (page_bitmap 2) [] eq_refl _ eq_refl _ _)).
  - lia.
  - intros d Hd; discriminate Hd.
  - intros img. exists [Byte.x89]. reflexivity.
Defined.

(** C3: when the requested page exceeds the page count [N], the result is
    one text naming both the page and [N]; no image is produced and only the
    page count was queried: the rasterizer is never invoked. *)
Theorem render_document_page_out_of_range (k : caps) (src : source)
    (info : option Z) (n : Z) (md : option Z) :
  k.(c_pdfinfo) src = inr info ->
  pages_total info < n ->
  render_document_page k src n md
    = ([EvPdfInfo src], inr [CText (page_error n (pages_total info))]) /\
  contains (str_Z n) (page_error n (pages_total info)) = true /\
  contains (str_Z (pages_total info)) (page_error n (pages_total info)) = true.
Proof.
  intros Hinfo Hlt. split; [| split].
  - unfold render_document_page, render_document_page_body.
    cbn [bind catch call lift ret raise fst snd app].
    rewrite Hinfo.
    replace (pages_total info <? n) with true by (symmetry; apply Z.ltb_lt; lia).
    reflexivity.
  - unfold page_error. apply contains_middle.
  - unfold page_error. do 3 apply contains_app_l. apply contains_app_prefix.
Qed.

Lemma render_document_page_out_of_range_witness :
  render_document_page demo_caps (SrcPath "/tmp/report.pdf") 9 None
    = ([EvPdfInfo (SrcPath "/tmp/report.pdf")],
       inr [CText "Error: Page 9 does not exist. The document has 3 pages."]).
Proof.
  exact (proj1 (render_document_page_out_of_range demo_caps (SrcPath "/tmp/report.pdf")
                  (Some 3) 9 None eq_refl ltac:(simpl; lia))).
Defined.

(** C6: for an in-range page whose rasterization returns no image, the
    [try] block itself returns (no exception) one text naming the page and
    saying the document "might be empty or invalid". *)
Theorem render_document_page_empty (k : caps) (src : source)
    (info : option Z) (n : Z) (md : option Z) :
  k.(c_pdfinfo) src = inr info ->
  1 <= n <= pages_total info ->
  k.(c_rasterize) src (Some n) (Some n) "png" = inr [] ->
  render_document_page_body k src n md
    = ([EvPdfInfo src; EvRasterize src (Some n) (Some n) "png"],
       inr [CText (empty_error n)]) /\
  render_document_page k src n md = render_document_page_body k src n md /\
  contains (str_Z n) (empty_error n) = true /\
  contains "might be empty or invalid" (empty_error n) = true.
Proof.
  intros Hinfo Hn Hras.
  assert (B : render_document_page_body k src n md
              = ([EvPdfInfo src; EvRasterize src (Some n) (Some n) "png"],
                 inr [CText (empty_error n)])).
  { unfold render_document_page_body, convert_pdf_to_images.
    cbn [bind catch call lift ret raise fst snd app].
    rewrite Hinfo.
    replace (pages_total info <? n) with false by (symmetry; apply Z.ltb_ge; lia).
    cbn [truthy]. replace (n =? 0) with false by (symmetry; apply Z.eqb_neq; lia).
    cbn [negb]. rewrite Hras. reflexivity. }
  split; [exact B | split; [| split]].
  - unfold render_document_page. rewrite B. reflexivity.
  - unfold empty_error. apply contains_middle.
  - unfold empty_error. do 2 apply contains_app_l. reflexivity.
Qed.

Lemma render_document_page_empty_witness :
  render_document_page_body blank_caps (SrcPath "/tmp/report.pdf") 2 None
    = ([EvPdfInfo (SrcPath "/tmp/report.pdf");
        EvRasterize (SrcPath "/tmp/report.pdf") (Some 2) (Some 2) "png"],
       inr [CText (empty_error 2)]).
Proof.
  exact (proj1 (render_document_page_empty blank_caps (SrcPath "/tmp/report.pdf")
                  (Some 3) 2 None eq_refl ltac:(simpl; lia) eq_refl)).
Defined.

(** C7: for [page_number >= 1], every rasterization [render_document_page]
    performs is constrained to the single page range
    [first_page = last_page = page_number]. *)
Theorem render_document_page_single_page_range (k : caps) (src : source)
    (n : Z) (md : option Z) :
  1 <= n ->
  forall s fp lp fmt,
    In (EvRasterize s fp lp fmt) (fst (render_document_page k src n md)) ->
    s = src /\ fp = Some n /\ lp = Some n /\ fmt = "png".
Proof.
  intros Hn s fp lp fmt Hin.
  pose proof (render_document_page_log k src n md) as Hlog. cbv zeta in Hlog.
  cbn [truthy] in Hlog.
  replace (n =? 0) with false in Hlog by (symmetry; apply Z.eqb_neq; lia).
  cbn [negb] in Hlog.
  destruct Hlog as [L | [L | L]]; rewrite L in Hin; simpl in Hin;
    repeat (destruct Hin as [Hin | Hin]; [try discriminate Hin | ]);
    try contradiction;
    injection Hin as <- <- <- <-; auto.
Qed.

Lemma render_document_page_single_page_range_witness :
  In (EvRasterize (SrcPath "/tmp/report.pdf") (Some 2) (Some 2) "png")
     (fst (render_document_page demo_caps (SrcPath "/tmp/report.pdf") 2 None)) /\
  (Some 2 = Some 2 /\ Some 2 = Some 2).
Proof.
  split; [vm_compute; auto |].
  destruct (render_document_page_single_page_range demo_caps (SrcPath "/tmp/report.pdf")
              2 None ltac:(lia) (SrcPath "/tmp/report.pdf") (Some 2) (Some 2) "png")
    as (_ & H1 & H2 & _).
  - vm_compute; auto.
  - split; assumption.
Defined.

(** C9: with [page_number = 0] on a PDF of [N >= 1] pages, there is no
    out-of-range error, the rasterizer is called with no page range at all
    (the whole document), the first bitmap it returns is the one resized and
    encoded, and the footer is ["Displaying Page 0 of N."] followed by the
    hint naming [page_number=1]. *)
Theorem render_document_page_zero (k : caps) (src : source) (N : Z)
    (md : option Z) (b : bitmap) (rest : list bitmap) :
  k.(c_pdfinfo) src = inr (Some N) ->
  1 <= N ->
  k.(c_rasterize) src None None "png" = inr (b :: rest) ->
  (forall d, md = Some d -> 0 <= d) ->
  (forall img, exists data, k.(c_save) img "PNG" = inr data) ->
  exists img' data,
    _resize_if_needed b md = inr img' /\ k.(c_save) img' "PNG" = inr data /\
    render_document_page k src 0 md
      = ([EvPdfInfo src; EvRasterize src None None "png"; EvSave "PNG"],
         inr [CImage data "png"; CText (footer_text 0 N)]) /\
    footer_text 0 N
      = "Displaying Page 0 of " ++ str_Z N
        ++ ". Call this tool again with page_number=1 to see the next page.".
Proof.
  intros Hinfo HN Hras Hmd Hsave.
  destruct (resize_valid b md Hmd) as [img' Hr].
  destruct (Hsave img') as [data Hs].
  exists img', data. split; [exact Hr | split; [exact Hs | split]].
  - unfold render_document_page, render_document_page_body, convert_pdf_to_images.
    cbn [bind catch call lift ret raise fst snd app].
    rewrite Hinfo. cbn [pages_total truthy].
    replace (N <? 0) with false by (symmetry; apply Z.ltb_ge; lia).
    cbn. rewrite Hras. cbn. rewrite Hr. cbn. rewrite Hs. reflexivity.
  - unfold footer_text.
    replace (0 <? N) with true by (symmetry; apply Z.ltb_lt; lia).
    simpl. rewrite sappend_assoc. reflexivity.
Qed.

Lemma render_document_page_zero_witness :
  exists img' data,
    _resize_if_needed (page_bitmap 1) None = inr img' /\
    demo_caps.(c_save) img' "PNG" = inr data /\
    render_document_page demo_caps (SrcPath "/tmp/report.pdf") 0 None
      = ([EvPdfInfo (SrcPath "/tmp/report.pdf");
          EvRasterize (SrcPath "/tmp/report.pdf") None None "png"; EvSave "PNG"],
         inr [CImage data "png"; CText (footer_text 0 3)]) /\
    footer_text 0 3
      = "Displaying Page 0 of " ++ str_Z 3
        ++ ". Call this tool again with page_number=1 to see the next page.".
Proof.
  apply (render_document_page_zero demo_caps (SrcPath "/tmp/report.pdf") 3 None
           (page_bitmap 1) [page_bitmap 2; page_bitmap 3] eq_refl).
  - lia.
  - reflexivity.
  - intros d Hd; discriminate Hd.
  - intros img. exists [Byte.x89]. reflexivity.
Defined.

(** ** [render_image] format selection *)

Lemma contains_char_false (c a : ascii) (s : string) :
  contains (String c "") (String a s) = false ->
  a <> c /\ contains (String c "") s = false.
Proof.
  rewrite contains_unfold. cbn [String.prefix].
  destruct (ascii_dec c a) as [<- | n].
  - destruct s; discriminate.
  - intros H. split; [congruence | exact H].
Qed.

Lemma split_aux_nonempty (c : ascii) (s cur : string) : split_aux c s cur <> [].
Proof.
  revert cur. induction s as [|a s IH]; intros cur; simpl; [discriminate |].
  destruct (Ascii.eqb a c); [discriminate | apply IH].
Qed.

Lemma split_aux_no_sep (c : ascii) (s cur : string) :
  contains (String c "") s = false -> split_aux c s cur = [cur ++ s].
Proof.
  revert cur. induction s as [|a s IH]; intros cur H; simpl.
  - rewrite sappend_empty_r. reflexivity.
  - apply contains_char_false in H as [Ha H].
    apply Ascii.eqb_neq in Ha. rewrite Ha, IH by exact H.
    rewrite sappend_assoc. reflexivity.
Qed.

Lemma last_split_aux (c : ascii) (t sub cur : string) :
  last (split_aux c (t ++ String c sub) cur) ""
  = last (split_aux c sub "") "".
Proof.
  revert cur. induction t as [|a t IH]; intros cur; simpl.
  - rewrite Ascii.eqb_refl.
    destruct (split_aux c sub "") eqn:E; [now apply split_aux_nonempty in E |].
    reflexivity.
  - destruct (Ascii.eqb a c).
    + rewrite <- (IH "").
      destruct (split_aux c (t ++ String c sub) "") eqn:E;
        [now apply split_aux_nonempty in E | reflexivity].
    + apply IH.
Qed.

(** [mime.split("/")[-1]] is the part after the last ["/"]. *)
Lemma last_item_split (t sub : string) :
  contains "/" sub = false ->
  last_item (split "/" (t ++ "/" ++ sub)) = sub.
Proof.
  intros H. unfold last_item, split. simpl (String.append "/" sub).
  rewrite last_split_aux, split_aux_no_sep by exact H. reflexivity.
Qed.

Lemma ascii_lower_upper (c : ascii) : ascii_lower (ascii_upper c) = ascii_lower c.
Proof. destruct c as [[] [] [] [] [] [] [] []]; reflexivity. Qed.

Lemma lower_upper (s : string) : lower (upper s) = lower s.
Proof.
  induction s as [|c s IH]; [reflexivity |].
  unfold lower, upper in *. simpl. rewrite ascii_lower_upper, IH. reflexivity.
Qed.

Lemma upper_J (c : ascii) : Ascii.eqb (ascii_upper c) "J" = Ascii.eqb (ascii_lower c) "j".
Proof. destruct c as [[] [] [] [] [] [] [] []]; reflexivity. Qed.
Lemma upper_P (c : ascii) : Ascii.eqb (ascii_upper c) "P" = Ascii.eqb (ascii_lower c) "p".
Proof. destruct c as [[] [] [] [] [] [] [] []]; reflexivity. Qed.
Lemma upper_G (c : ascii) : Ascii.eqb (ascii_upper c) "G" = Ascii.eqb (ascii_lower c) "g".
Proof. destruct c as [[] [] [] [] [] [] [] []]; reflexivity. Qed.

(** [fmt == "JPG"] after [.upper()] is a case-insensitive test for ["jpg"]. *)
Lemma upper_is_JPG (s : string) :
  String.eqb (upper s) "JPG" = String.eqb (lower s) "jpg".
Proof.
  destruct s as [|a [|b [|c [|d s]]]]; unfold upper, lower; simpl;
    rewrite ?upper_J, ?upper_P, ?upper_G; try reflexivity;
    destruct (Ascii.eqb (ascii_lower a) "j"), (Ascii.eqb (ascii_lower b) "p"),
             (Ascii.eqb (ascii_lower c) "g"); reflexivity.
Qed.

(** The calls and result of [render_image]: either an error text, or an
    image encoded with [image_format]. *)
Lemma render_image_cases (k : caps) (src : source) (mime : string) (md : option Z) :
  (exists tr s, render_image k src mime md = (tr, inr [CText s]) /\
                String.prefix "Error" s = true) \/
  (exists b data, render_image k src mime md
     = ([EvOpen src; EvSave (image_format src mime)],
        inr [CImage data (lower (image_format src mime))]) /\
     k.(c_save) b (image_format src mime) = inr data).
  unfold render_image. run_caps;
    first [ left; eexists; eexists; split; reflexivity
          | right; eexists; eexists; split; [reflexivity | eassumption] ].
Qed.

(** C5: a successful [render_image] call encodes a byte buffer with the
    subtype of its MIME hint (the part after the last ["/"]), written
    ["JPEG"] when that subtype is ["jpg"] in any case, and tags the artifact
    with the lowercase subtype (["jpeg"] for ["jpg"]); it always encodes a
    path input as PNG with the tag ["png"]. *)
Theorem render_image_format (k : caps) (src : source) (mime : string)
    (md : option Z) (tr : list event) (data : bytes) (tag : string) :
  render_image k src mime md = (tr, inr [CImage data tag]) ->
  match src with
  | SrcBytes _ =>
      forall t sub, mime = t ++ "/" ++ sub -> contains "/" sub = false ->
        In (EvSave (if String.eqb (lower sub) "jpg" then "JPEG" else upper sub)) tr /\
        tag = (if String.eqb (lower sub) "jpg" then "jpeg" else lower sub)
  | SrcPath _ => In (EvSave "PNG") tr /\ tag = "png"
  end.
Proof.
  intros H.
  destruct (render_image_cases k src mime md) as [(tr' & s & E & _) | (b & d & E & _)];
    rewrite E in H; [discriminate H |].
  injection H as <- _ <-.
  destruct src as [bs | p].
  - intros t sub -> Hsub. unfold image_format.
    rewrite contains_middle, last_item_split by exact Hsub.
    rewrite upper_is_JPG.
    destruct (String.eqb (lower sub) "jpg").
    + split; [simpl; auto | reflexivity].
    + split; [simpl; auto | apply lower_upper].
  - split; [simpl; auto | reflexivity].
Qed.

Lemma render_image_format_witness :
  (forall t sub, "image/jpg" = t ++ "/" ++ sub -> contains "/" sub = false ->
     In (EvSave (if String.eqb (lower sub) "jpg" then "JPEG" else upper sub))
        [EvOpen (SrcBytes [Byte.xff]); EvSave "JPEG"] /\
     "jpeg" = (if String.eqb (lower sub) "jpg" then "jpeg" else lower sub)) /\
  In (EvSave "JPEG") [EvOpen (SrcBytes [Byte.xff]); EvSave "JPEG"].
Proof.
  split.
  - exact (render_image_format demo_caps (SrcBytes [Byte.xff]) "image/jpg" None
             [EvOpen (SrcBytes [Byte.xff]); EvSave "JPEG"] [Byte.x89] "jpeg" eq_refl).
  - exact (proj1 (render_image_format demo_caps (SrcBytes [Byte.xff]) "image/jpg" None
             [EvOpen (SrcBytes [Byte.xff]); EvSave "JPEG"] [Byte.x89] "jpeg" eq_refl
             "image" "jpg" eq_refl eq_refl)).
Defined.

(** ** [get_local_file_visual] *)

Lemma footer_text_prefix (n N : Z) :
  String.prefix "Displaying Page" (footer_text n N) = true.
Proof. unfold footer_text. destruct (n <? N); reflexivity. Qed.

(** [render_document_page] never raises: it returns an error text, or an
    image and a footer. *)
Lemma render_document_page_cases (k : caps) (src : source) (n : Z) (md : option Z) :
  (exists tr s, render_document_page k src n md = (tr, inr [CText s]) /\
                String.prefix "Error" s = true) \/
  (exists tr data s,
     render_document_page k src n md = (tr, inr [CImage data "png"; CText s]) /\
     String.prefix "Displaying Page" s = true).
Proof.
  unfold render_document_page, render_document_page_body, convert_pdf_to_images.
  run_caps;
    first [ left; eexists; eexists; split; reflexivity
          | right; eexists; eexists; eexists; split;
            [reflexivity | apply footer_text_prefix] ].
Qed.

(** C8: a missing path gives one text containing "not found", an existing
    path that is not a regular file one text containing "not a file", and a
    regular file whose MIME type ([application/octet-stream] when it cannot
    be guessed) is none of [image/*], [application/pdf], [text/html] one text
    naming that MIME type; in all three cases no capability is called (the
    log is empty), so no renderer runs. *)
Theorem get_local_file_visual_input_errors (k : caps) (path : string)
    (page : Z) (md : option Z) :
  (k.(c_exists) path = false ->
   exists s, get_local_file_visual k path page md = ([], inr [CText s]) /\
             contains "not found" s = true) /\
  (k.(c_exists) path = true -> k.(c_isfile) path = false ->
   exists s, get_local_file_visual k path page md = ([], inr [CText s]) /\
             contains "not a file" s = true) /\
  (k.(c_exists) path = true -> k.(c_isfile) path = true ->
   String.prefix "image/" (mime_of k path) = false ->
   mime_of k path <> "application/pdf" -> mime_of k path <> "text/html" ->
   exists s, get_local_file_visual k path page md = ([], inr [CText s]) /\
             contains (mime_of k path) s = true) /\
  (k.(c_guess_type) path = None -> mime_of k path = "application/octet-stream").
Proof.
  split; [| split; [| split]].
  - intros He. unfold get_local_file_visual. rewrite He.
    eexists; split; [reflexivity |].
    change ("Error: File not found at " ++ path)
      with ("Error: File " ++ "not found" ++ " at " ++ path).
    apply contains_middle.
  - intros He Hf. unfold get_local_file_visual. rewrite He, Hf.
    eexists; split; [reflexivity |].
    change ("Error: Path is not a file: " ++ path)
      with ("Error: Path is " ++ "not a file" ++ ": " ++ path).
    apply contains_middle.
  - intros He Hf Hi Hp Hh. unfold get_local_file_visual. rewrite He, Hf.
    cbv zeta. rewrite Hi.
    apply String.eqb_neq in Hp, Hh. rewrite Hp, Hh.
    eexists; split; [reflexivity |].
    apply contains_middle.
  - intros Hg. unfold mime_of. rewrite Hg. reflexivity.
Qed.

Lemma get_local_file_visual_input_errors_witness :
  (exists s, get_local_file_visual demo_caps "/nope" 1 None = ([], inr [CText s]) /\
             contains "not found" s = true) /\
  (exists s, get_local_file_visual demo_caps "/tmp" 1 None = ([], inr [CText s]) /\
             contains "not a file" s = true) /\
  (exists s, get_local_file_visual demo_caps "/tmp/a.zip" 1 None = ([], inr [CText s]) /\
             contains (mime_of demo_caps "/tmp/a.zip") s = true) /\
  mime_of demo_caps "/tmp/other" = "application/octet-stream".
Proof.
  split; [| split; [| split]].
  - apply (proj1 (get_local_file_visual_input_errors demo_caps "/nope" 1 None)).
    reflexivity.
  - apply (proj1 (proj2 (get_local_file_visual_input_errors demo_caps "/tmp" 1 None)));
      reflexivity.
  - apply (proj1 (proj2 (proj2 (get_local_file_visual_input_errors demo_caps "/tmp/a.zip" 1 None))));
      try reflexivity; vm_compute; discriminate.
  - apply (proj2 (proj2 (proj2 (get_local_file_visual_input_errors demo_caps "/tmp/other" 1 None)))).
    reflexivity.
Defined.

(** C1: [get_local_file_visual] never raises and always returns a non-empty
    list: one text starting with ["Error"], or, for an [image/*] file, one
    image, or, for a PDF or HTML file, an image followed by the status text. *)
Theorem get_local_file_visual_shape (k : caps) (path : string) (page : Z)
    (md : option Z) :
  exists tr l, get_local_file_visual k path page md = (tr, inr l) /\
    ((exists s, l = [CText s] /\ String.prefix "Error" s = true) \/
     (String.prefix "image/" (mime_of k path) = true /\
      exists data fmt, l = [CImage data fmt]) \/
     ((mime_of k path = "application/pdf" \/ mime_of k path = "text/html") /\
      exists data s, l = [CImage data "png"; CText s] /\
                     String.prefix "Displaying Page" s = true)).
Proof.
  unfold get_local_file_visual.
  destruct (c_exists k path); cbn [negb];
    [| do 2 eexists; split; [reflexivity | left; eexists; split; reflexivity]].
  destruct (c_isfile k path); cbn [negb];
    [| do 2 eexists; split; [reflexivity | left; eexists; split; reflexivity]].
  cbv zeta.
  destruct (String.prefix "image/" (mime_of k path)) eqn:Ei.
  - destruct (render_image_cases k (SrcPath path) "image/png" md)
      as [(tr & s & E & P) | (b & d & E & _)]; rewrite E; cbn [catch];
      do 2 eexists; split; try reflexivity.
    + left. eauto.
    + right; left. split; [reflexivity | eauto].
  - destruct (String.eqb_spec (mime_of k path) "application/pdf") as [Ep | Ep].
    + destruct (render_document_page_cases k (SrcPath path) page md)
        as [(tr & s & E & P) | (tr & d & s & E & P)]; rewrite E; cbn [catch];
        do 2 eexists; split; try reflexivity.
      * left. eauto.
      * right; right. split; [left; exact Ep | eauto].
    + destruct (String.eqb_spec (mime_of k path) "text/html") as [Eh | Eh].
      * destruct (c_read_text k path) as [e | html]; cbn [bind catch call ret];
          [do 2 eexists; split; [reflexivity | left; eexists; split; reflexivity] |].
        unfold convert_html_to_pdf.
        destruct (c_html_to_pdf k html) as [e | pdf]; cbn [bind catch call ret];
          [do 2 eexists; split; [reflexivity | left; eexists; split; reflexivity] |].
        destruct (render_document_page_cases k (SrcBytes pdf) page md)
          as [(tr & s & E & P) | (tr & d & s & E & P)]; rewrite E; cbn [app catch];
          do 2 eexists; split; try reflexivity.
        -- left. eauto.
        -- right; right. split; [right; exact Eh | eauto].
      * do 2 eexists; split; [reflexivity | left; eexists; split; reflexivity].
Qed.

(** * Further properties of the code *)

(** ** The resizer *)

(** A negative bound is truthy and never met, and [thumbnail] then asks
    Pillow for a negative size. *)
Lemma resize_negative (img : bitmap) (d : Z) :
  d < 0 -> _resize_if_needed img (Some d) = inl (Exn "height and width must be > 0").
Proof.
  intros Hd.
  destruct (width_pos img) as [pw Hw]. destruct (height_pos img) as [ph Hh].
  destruct d as [|pd|pd]; try lia.
  unfold _resize_if_needed. cbn [truthy negb Z.eqb].
  replace (Z.max (width img) (height img) <=? Zneg pd) with false
    by (symmetry; apply Z.leb_gt; lia).
  unfold thumbnail, preserve_aspect_ratio. rewrite Hw, Hh. cbn [Z.leb Z.compare andb Z.eqb].
  destruct (Qle_bool _ _); destruct (round_aspect _ _); simpl;
    rewrite ?andb_false_r; reflexivity.
Qed.

(** A successful resize either returns the bitmap itself or is a downscale
    by [thumbnail] to a positive bound below the larger side. *)
Lemma resize_cases (img img' : bitmap) (md : option Z) :
  _resize_if_needed img md = inr img' ->
  img' = img \/
  exists d, md = Some d /\ 0 < d < Z.max (width img) (height img) /\
            thumbnail img d = inr img'.
Proof.
  intros H. destruct md as [d|]; [| injection H as <-; auto].
  destruct (Z.lt_trichotomy d 0) as [Hn | [H0 | Hp]].
  - rewrite resize_negative in H by exact Hn. discriminate H.
  - subst d. injection H as <-. auto.
  - unfold _resize_if_needed in H. cbn [truthy] in H.
    replace (d =? 0) with false in H by (symmetry; apply Z.eqb_neq; lia).
    cbn [negb] in H.
    destruct (Z.leb_spec (Z.max (width img) (height img)) d).
    + injection H as <-. auto.
    + right. exists d. repeat split; auto; lia.
Qed.



(** X2: the resizer never enlarges a side: whenever it succeeds, the width
    and the height of the result are at most those of its input. *)
Theorem resize_never_enlarges (img img' : bitmap) (md : option Z) :
  _resize_if_needed img md = inr img' ->
  width img' <= width img /\ height img' <= height img.
Proof.
  intros H. destruct (resize_cases img img' md H) as [-> | (d & _ & Hd & Ht)];
    [lia |].
  destruct (thumbnail_down img d) as (img'' & Ht' & Hmax & Hw & Hh); [lia | lia |].
  rewrite Ht in Ht'. injection Ht' as <-.
  pose proof (width_pos img) as [pw Ew]. pose proof (height_pos img) as [ph Eh].
  pose proof (width_pos img') as [pw' Ew']. pose proof (height_pos img') as [ph' Eh'].
  rewrite Ew, Eh, Ew', Eh' in *.
  set (m := Z.max (Zpos pw) (Zpos ph)) in *.
  apply Z.abs_lt in Hw, Hh.
  split; nia.
Qed.

Lemma resize_never_enlarges_witness :
  exists img', _resize_if_needed (Decoded 0 333 1000) (Some 100) = inr img' /\
    width img' <= 333 /\ height img' <= 1000.
Proof.
  exists (Resampled (Decoded 0 333 1000) 33 100). split; [reflexivity |].
  exact (resize_never_enlarges (Decoded 0 333 1000) _ (Some 100) eq_refl).
Defined.

(** X3: resizing is idempotent: resizing the result of a successful resize
    with the same bound returns it unchanged. *)
Theorem resize_idempotent (img img' : bitmap) (md : option Z) :
  _resize_if_needed img md = inr img' ->
  _resize_if_needed img' md = inr img'.
Proof.
  intros H. destruct (resize_cases img img' md H) as [-> | (d & -> & Hd & Ht)];
    [exact H |].
  destruct (thumbnail_down img d) as (img'' & Ht' & Hmax & _); [lia | lia |].
  rewrite Ht in Ht'. injection Ht' as <-.
  unfold _resize_if_needed. cbn [truthy].
  replace (d =? 0) with false by (symmetry; apply Z.eqb_neq; lia). cbn [negb].
  rewrite Hmax, Z.leb_refl. reflexivity.
Qed.

Lemma resize_idempotent_witness :
  _resize_if_needed (Resampled (Decoded 0 4000 3000) 1000 750) (Some 1000)
  = inr (Resampled (Decoded 0 4000 3000) 1000 750).
Proof.
  exact (resize_idempotent (Decoded 0 4000 3000) _ (Some 1000) eq_refl).
Defined.

(** ** Failures inside [render_document_page] and [render_image] *)

(** X4: [render_document_page] turns each failing capability into its error
    text and stops there: a failed page count (nothing rasterized), a failed
    rasterization (the message wrapped by [convert_pdf_to_images] as
    ["Failed to convert PDF to Image: ..."]), and a failed PNG encoding. *)
Theorem render_document_page_failures (k : caps) (src : source) (n : Z)
    (md : option Z) (e : exn) (info : option Z) (b img : bitmap)
    (rest : list bitmap) :
  (k.(c_pdfinfo) src = inl e ->
   render_document_page k src n md
   = ([EvPdfInfo src], inr [CText ("Error rendering document: " ++ exn_msg e)])) /\
  (k.(c_pdfinfo) src = inr info -> 1 <= n <= pages_total info ->
   k.(c_rasterize) src (Some n) (Some n) "png" = inl e ->
   render_document_page k src n md
   = ([EvPdfInfo src; EvRasterize src (Some n) (Some n) "png"],
      inr [CText ("Error rendering document: Failed to convert PDF to Image: "
                  ++ exn_msg e)])) /\
  (k.(c_pdfinfo) src = inr info -> 1 <= n <= pages_total info ->
   k.(c_rasterize) src (Some n) (Some n) "png" = inr (b :: rest) ->
   _resize_if_needed b md = inr img -> k.(c_save) img "PNG" = inl e ->
   render_document_page k src n md
   = ([EvPdfInfo src; EvRasterize src (Some n) (Some n) "png"; EvSave "PNG"],
      inr [CText ("Error rendering document: " ++ exn_msg e)])).
Proof.
  unfold render_document_page, render_document_page_body, convert_pdf_to_images.
  split; [| split].
  - intros Hi. cbn [bind catch call lift ret raise fst snd app]. rewrite Hi. reflexivity.
  - intros Hi Hn Hr. cbn [bind catch call lift ret raise fst snd app]. rewrite Hi.
    replace (pages_total info <? n) with false by (symmetry; apply Z.ltb_ge; lia).
    cbn [truthy]. replace (n =? 0) with false by (symmetry; apply Z.eqb_neq; lia).
    cbn [negb]. rewrite Hr. reflexivity.
  - intros Hi Hn Hr Hz Hs. cbn [bind catch call lift ret raise fst snd app]. rewrite Hi.
    replace (pages_total info <? n) with false by (symmetry; apply Z.ltb_ge; lia).
    cbn [truthy]. replace (n =? 0) with false by (symmetry; apply Z.eqb_neq; lia).
    cbn [negb]. rewrite Hr. cbn [bind catch call lift ret raise fst snd app].
    rewrite Hz. cbn [bind catch call lift ret raise fst snd app].
    rewrite Hs. reflexivity.
Qed.

Lemma render_document_page_failures_witness :
  render_document_page failing_caps (SrcPath "/tmp/broken.pdf") 1 None
  = ([EvPdfInfo (SrcPath "/tmp/broken.pdf")],
     inr [CText "Error rendering document: Syntax Error"]) /\
  render_document_page failing_caps (SrcBytes [Byte.x25]) 1 None
  = ([EvPdfInfo (SrcBytes [Byte.x25]); EvRasterize (SrcBytes [Byte.x25]) (Some 1) (Some 1) "png"],
     inr [CText "Error rendering document: Failed to convert PDF to Image: poppler crashed"]) /\
  render_document_page failing_caps (SrcPath "/tmp/report.pdf") 2 None
  = ([EvPdfInfo (SrcPath "/tmp/report.pdf");
      EvRasterize (SrcPath "/tmp/report.pdf") (Some 2) (Some 2) "png"; EvSave "PNG"],
     inr [CText "Error rendering document: disk full"]).
Proof.
  split; [| split].
  - exact (proj1 (render_document_page_failures failing_caps (SrcPath "/tmp/broken.pdf") 1 None
                    (Exn "Syntax Error") None (page_bitmap 1) (page_bitmap 1) [])
             eq_refl).
  - exact (proj1 (proj2 (render_document_page_failures failing_caps (SrcBytes [Byte.x25]) 1 None
                    (Exn "poppler crashed") (Some 3) (page_bitmap 1) (page_bitmap 1) []))
             eq_refl ltac:(simpl; lia) eq_refl).
  - exact (proj2 (proj2 (render_document_page_failures failing_caps (SrcPath "/tmp/report.pdf") 2 None
                    (Exn "disk full") (Some 3) (page_bitmap 2) (page_bitmap 2) []))
             eq_refl ltac:(simpl; lia) eq_refl eq_refl eq_refl).
Defined.

(** X5: [render_document_page] rasterizes only after a successful page
    count that is at least the requested page. *)
Theorem render_document_page_rasterizes_after_count (k : caps) (src : source)
    (n : Z) (md : option Z) (s : source) (fp lp : option Z) (fmt : string) :
  In (EvRasterize s fp lp fmt) (fst (render_document_page k src n md)) ->
  exists info, k.(c_pdfinfo) src = inr info /\ n <= pages_total info.
Proof.
  unfold render_document_page, render_document_page_body.
  cbn [bind catch call lift ret raise fst snd app].
  destruct (c_pdfinfo k src) as [e | info] eqn:Hi;
    cbn [bind catch call lift ret raise fst snd app];
    [intros [H | []]; discriminate H |].
  destruct (pages_total info <? n) eqn:Hl;
    cbn [bind catch call lift ret raise fst snd app];
    [intros [H | []]; discriminate H |].
  intros _. exists info. split; [reflexivity | apply Z.ltb_ge; exact Hl].
Qed.

Lemma render_document_page_rasterizes_after_count_witness :
  exists info, demo_caps.(c_pdfinfo) (SrcPath "/tmp/report.pdf") = inr info /\
               3 <= pages_total info.
Proof.
  apply (render_document_page_rasterizes_after_count demo_caps
           (SrcPath "/tmp/report.pdf") 3 None (SrcPath "/tmp/report.pdf")
           (Some 3) (Some 3) "png").
  vm_compute. auto.
Defined.

(** X6: every image [render_document_page] returns is tagged ["png"] and was
    produced by a PNG encoding, whatever the input. *)
Theorem render_document_page_png_only (k : caps) (src : source) (n : Z)
    (md : option Z) (data : bytes) (tag : string) (l : list content) :
  snd (render_document_page k src n md) = inr (CImage data tag :: l) ->
  tag = "png" /\
  fst (render_document_page k src n md)
  = [EvPdfInfo src; EvRasterize src (if truthy (Some n) then Some n else None)
                      (if truthy (Some n) then Some n else None) "png"; EvSave "PNG"].
Proof.
  unfold render_document_page, render_document_page_body, convert_pdf_to_images.
  run_caps; intros H; try discriminate H;
    injection H as _ <- _; split; reflexivity.
Qed.

Lemma render_document_page_png_only_witness :
  "png" = "png" /\
  fst (render_document_page demo_caps (SrcBytes [Byte.x25]) 1 None)
  = [EvPdfInfo (SrcBytes [Byte.x25]); EvRasterize (SrcBytes [Byte.x25]) (Some 1) (Some 1) "png";
     EvSave "PNG"].
Proof.
  exact (render_document_page_png_only demo_caps (SrcBytes [Byte.x25]) 1 None [Byte.x89] "png"
           [CText "Displaying Page 1 of 1."] eq_refl).
Defined.

(** X7: [render_image] reports a decoding failure without trying to encode,
    and an encoding failure (for instance a MIME subtype Pillow cannot
    write) after the one encoding attempt, both as
    ["Error rendering image: ..."]. *)
Theorem render_image_failures (k : caps) (src : source) (mime : string)
    (md : option Z) (e : exn) (b img : bitmap) :
  (k.(c_open) src = inl e ->
   render_image k src mime md
   = ([EvOpen src], inr [CText ("Error rendering image: " ++ exn_msg e)])) /\
  (k.(c_open) src = inr b -> _resize_if_needed b md = inr img ->
   k.(c_save) img (image_format src mime) = inl e ->
   render_image k src mime md
   = ([EvOpen src; EvSave (image_format src mime)],
      inr [CText ("Error rendering image: " ++ exn_msg e)])).
Proof.
  unfold render_image. split.
  - intros Ho. cbn [bind catch call lift ret]. rewrite Ho. reflexivity.
  - intros Ho Hz Hs. cbn [bind catch call lift ret]. rewrite Ho.
    cbn [bind catch call lift ret app]. rewrite Hz.
    cbn [bind catch call lift ret app]. rewrite Hs. reflexivity.
Qed.

Lemma render_image_failures_witness :
  render_image failing_caps (SrcBytes []) "image/png" None
  = ([EvOpen (SrcBytes [])], inr [CText "Error rendering image: cannot identify image file"]) /\
  render_image demo_caps (SrcBytes [Byte.x00]) "image/svg+xml" None
  = ([EvOpen (SrcBytes [Byte.x00]); EvSave "SVG+XML"],
     inr [CText "Error rendering image: SVG+XML"]).
Proof.
  split.
  - exact (proj1 (render_image_failures failing_caps (SrcBytes []) "image/png" None
                    (Exn "cannot identify image file") (Decoded 0 1 1) (Decoded 0 1 1)) eq_refl).
  - exact (proj2 (render_image_failures demo_caps (SrcBytes [Byte.x00]) "image/svg+xml" None
                    (Exn "SVG+XML") (Decoded 0 4000 3000) (Decoded 0 4000 3000))
             eq_refl eq_refl eq_refl).
Defined.

(** ** Dispatch in [get_local_file_visual] *)

(** Split [get_local_file_visual] on its input checks and on the MIME type,
    then on every capability outcome of the branch taken. *)
Ltac run_dispatch k path :=
  unfold get_local_file_visual;
  destruct (c_exists k path), (c_isfile k path); cbn [negb]; cbv zeta;
  [ destruct (String.prefix "image/" (mime_of k path));
    [| destruct (String.eqb (mime_of k path) "application/pdf");
       [| destruct (String.eqb (mime_of k path) "text/html")]] | | | ];
  unfold render_image, render_document_page, render_document_page_body,
    convert_pdf_to_images, convert_html_to_pdf;
  run_caps.

(** [try]/[except] leaves a computation that does not raise unchanged. *)
Lemma catch_ok {A} (m : M A) (h : exn -> M A) (a : A) :
  snd m = inr a -> catch m h = m.
Proof. destruct m as [l [e | x]]; cbn; [discriminate | reflexivity]. Qed.

Lemma render_image_ok (k : caps) (src : source) (mime : string) (md : option Z) :
  exists l, snd (render_image k src mime md) = inr l.
Proof.
  destruct (render_image_cases k src mime md)
    as [(tr & s & E & _) | (b & d & E & _)]; rewrite E; eexists; reflexivity.
Qed.

Lemma render_document_page_ok (k : caps) (src : source) (n : Z) (md : option Z) :
  exists l, snd (render_document_page k src n md) = inr l.
Proof.
  destruct (render_document_page_cases k src n md)
    as [(tr & s & E & _) | (tr & d & s & E & _)]; rewrite E; eexists; reflexivity.
Qed.

(** X8: for an existing file, [get_local_file_visual] hands an [image/*]
    file to [render_image] as a PNG path (the page number plays no part)
    and a PDF to [render_document_page] on the same path; the outer
    [try] then changes nothing, neither the result nor the calls made. *)
Theorem get_local_file_visual_delegates (k : caps) (path : string) (page : Z)
    (md : option Z) :
  k.(c_exists) path = true -> k.(c_isfile) path = true ->
  (String.prefix "image/" (mime_of k path) = true ->
   get_local_file_visual k path page md = render_image k (SrcPath path) "image/png" md) /\
  (String.prefix "image/" (mime_of k path) = false ->
   mime_of k path = "application/pdf" ->
   get_local_file_visual k path page md = render_document_page k (SrcPath path) page md).
Proof.
  intros He Hf. unfold get_local_file_visual. rewrite He, Hf. cbn [negb]. cbv zeta.
  split.
  - intros Hi. rewrite Hi.
    destruct (render_image_ok k (SrcPath path) "image/png" md) as [l Hl].
    exact (catch_ok _ _ _ Hl).
  - intros Hi Hp. rewrite Hi, Hp. cbn [String.eqb Ascii.eqb Bool.eqb andb].
    destruct (render_document_page_ok k (SrcPath path) page md) as [l Hl].
    exact (catch_ok _ _ _ Hl).
Qed.

Lemma get_local_file_visual_delegates_witness :
  get_local_file_visual demo_caps "/tmp/photo.jpg" 7 None
  = render_image demo_caps (SrcPath "/tmp/photo.jpg") "image/png" None /\
  get_local_file_visual demo_caps "/tmp/report.pdf" 2 (Some 500)
  = render_document_page demo_caps (SrcPath "/tmp/report.pdf") 2 (Some 500).
Proof.
  split.
  - exact (proj1 (get_local_file_visual_delegates demo_caps "/tmp/photo.jpg" 7 None
                    eq_refl eq_refl) eq_refl).
  - exact (proj2 (get_local_file_visual_delegates demo_caps "/tmp/report.pdf" 2 (Some 500)
                    eq_refl eq_refl) eq_refl eq_refl).
Defined.

(** X9: an HTML file is read, converted to PDF bytes, and the bytes go
    through [render_document_page]: the calls are the read, the
    conversion, then those of [render_document_page], whose result is
    returned as is. *)
Theorem get_local_file_visual_html (k : caps) (path : string) (page : Z)
    (md : option Z) (html : string) (pdf : bytes) :
  k.(c_exists) path = true -> k.(c_isfile) path = true ->
  mime_of k path = "text/html" ->
  k.(c_read_text) path = inr html -> k.(c_html_to_pdf) html = inr pdf ->
  get_local_file_visual k path page md
  = (app [EvReadText path; EvHtmlToPdf html] (fst (render_document_page k (SrcBytes pdf) page md)),
     snd (render_document_page k (SrcBytes pdf) page md)).
Proof.
  intros He Hf Hm Hr Hc. unfold get_local_file_visual, convert_html_to_pdf.
  rewrite He, Hf, Hm. cbn [negb]. cbv zeta. cbn [String.prefix String.eqb Ascii.eqb Bool.eqb andb].
  rewrite Hr. cbn [bind call]. rewrite Hc. cbn [bind call app].
  destruct (render_document_page_ok k (SrcBytes pdf) page md) as [l Hl].
  destruct (render_document_page k (SrcBytes pdf) page md) as [tr r].
  cbn [snd] in Hl. subst r. reflexivity.
Qed.

Lemma get_local_file_visual_html_witness :
  get_local_file_visual demo_caps "/tmp/page.html" 1 None
  = (app [EvReadText "/tmp/page.html"; EvHtmlToPdf "<p>hello</p>"]
       (fst (render_document_page demo_caps (SrcBytes [Byte.x25]) 1 None)),
     snd (render_document_page demo_caps (SrcBytes [Byte.x25]) 1 None)).
Proof.
  exact (get_local_file_visual_html demo_caps "/tmp/page.html" 1 None "<p>hello</p>"
           [Byte.x25] eq_refl eq_refl eq_refl eq_refl eq_refl).
Defined.

(** X10: when an HTML file cannot be read, or its conversion to PDF fails,
    [get_local_file_visual] stops there (nothing is rasterized) and reports
    ["Error rendering HTML file: ..."] with the exception's message. *)
Theorem get_local_file_visual_html_failures (k : caps) (path : string) (page : Z)
    (md : option Z) (html : string) (e : exn) :
  k.(c_exists) path = true -> k.(c_isfile) path = true ->
  mime_of k path = "text/html" ->
  (k.(c_read_text) path = inl e ->
   get_local_file_visual k path page md
   = ([EvReadText path], inr [CText ("Error rendering HTML file: " ++ exn_msg e)])) /\
  (k.(c_read_text) path = inr html -> k.(c_html_to_pdf) html = inl e ->
   get_local_file_visual k path page md
   = ([EvReadText path; EvHtmlToPdf html],
      inr [CText ("Error rendering HTML file: " ++ exn_msg e)])).
Proof.
  intros He Hf Hm. unfold get_local_file_visual, convert_html_to_pdf.
  rewrite He, Hf, Hm. cbn [negb]. cbv zeta. cbn [String.prefix String.eqb Ascii.eqb Bool.eqb andb].
  split.
  - intros Hr. rewrite Hr. reflexivity.
  - intros Hr Hc. rewrite Hr. cbn [bind call]. rewrite Hc. reflexivity.
Qed.

Lemma get_local_file_visual_html_failures_witness :
  get_local_file_visual failing_caps "/tmp/latin1.html" 1 None
  = ([EvReadText "/tmp/latin1.html"],
     inr [CText "Error rendering HTML file: 'utf-8' codec can't decode byte 0xe9"]) /\
  get_local_file_visual failing_caps "/tmp/page.html" 1 None
  = ([EvReadText "/tmp/page.html"; EvHtmlToPdf "<bad>"],
     inr [CText "Error rendering HTML file: weasyprint is required for PDF rendering."]).
Proof.
  split.
  - exact (proj1 (get_local_file_visual_html_failures failing_caps "/tmp/latin1.html" 1 None
                    "<bad>" (Exn "'utf-8' codec can't decode byte 0xe9")
                    eq_refl eq_refl eq_refl) eq_refl).
  - exact (proj2 (get_local_file_visual_html_failures failing_caps "/tmp/page.html" 1 None
                    "<bad>" (Exn "weasyprint is required for PDF rendering.")
                    eq_refl eq_refl eq_refl) eq_refl eq_refl).
Defined.

(** X11: a file of any other type is refused by name without any of its
    content being opened, read or converted: no capability is called. *)
Theorem get_local_file_visual_unsupported (k : caps) (path : string) (page : Z)
    (md : option Z) :
  k.(c_exists) path = true -> k.(c_isfile) path = true ->
  String.prefix "image/" (mime_of k path) = false ->
  mime_of k path <> "application/pdf" -> mime_of k path <> "text/html" ->
  get_local_file_visual k path page md
  = ([], inr [CText ("Error: Unsupported file type '" ++ mime_of k path
                     ++ "'. Only PDF, Images, and HTML are supported for visual inspection.")]).
Proof.
  intros He Hf Hi Hp Hh. unfold get_local_file_visual.
  rewrite He, Hf. cbn [negb]. cbv zeta. rewrite Hi.
  apply String.eqb_neq in Hp, Hh. rewrite Hp, Hh. reflexivity.
Qed.

Lemma get_local_file_visual_unsupported_witness :
  get_local_file_visual demo_caps "/tmp/a.zip" 1 None
  = ([], inr [CText ("Error: Unsupported file type 'application/zip'. "
                     ++ "Only PDF, Images, and HTML are supported for visual inspection.")]).
Proof.
  exact (get_local_file_visual_unsupported demo_caps "/tmp/a.zip" 1 None
           eq_refl eq_refl eq_refl ltac:(discriminate) ltac:(discriminate)).
Defined.

(** X12: the outer [except] of [get_local_file_visual] is never reached:
    every branch of its [try] handles its own errors, so no text the call
    returns starts with ["Error reading file: "]. *)
Theorem get_local_file_visual_outer_handler_unreached (k : caps) (path : string)
    (page : Z) (md : option Z) (l : list content) (s : string) :
  snd (get_local_file_visual k path page md) = inr l -> In (CText s) l ->
  String.prefix "Error reading file: " s = false.
Proof.
  run_dispatch k path; intros Hl Hin; injection Hl as <-;
    (first [destruct Hin as [Hin | [Hin | []]] | destruct Hin as [Hin | []]];
     first [ discriminate Hin
           | injection Hin as <-; reflexivity
           | injection Hin as <-; unfold footer_text;
             match goal with |- context [if ?c then _ else _] => destruct c end;
             reflexivity ]).
Qed.

Lemma get_local_file_visual_outer_handler_unreached_witness :
  String.prefix "Error reading file: "
    "Error rendering HTML file: weasyprint is required for PDF rendering." = false.
Proof.
  apply (get_local_file_visual_outer_handler_unreached failing_caps "/tmp/page.html" 1 None
           [CText "Error rendering HTML file: weasyprint is required for PDF rendering."]);
    [vm_compute; reflexivity | left; reflexivity].
Defined.


(** X13: a local file is only ever encoded as PNG, and every image
    [get_local_file_visual] returns is tagged ["png"]. *)
Theorem get_local_file_visual_png_only (k : caps) (path : string) (page : Z)
    (md : option Z) :
  (forall fmt, In (EvSave fmt) (fst (get_local_file_visual k path page md)) ->
   fmt = "PNG") /\
  (forall l data tag, snd (get_local_file_visual k path page md) = inr l ->
   In (CImage data tag) l -> tag = "png").
Proof.
  run_dispatch k path; cbn [image_format] in *;
    (split;
     [ intros fmt Hin; simpl in Hin; intuition congruence
     | intros cs data tag Hl Hin; injection Hl as <-;
       first [destruct Hin as [Hin | [Hin | []]] | destruct Hin as [Hin | []]];
       first [discriminate Hin | injection Hin as _ <-; reflexivity] ]).
Qed.

(** ** What gets encoded *)

(** A positive bound is met by every bitmap the resizer returns. *)
Lemma resize_fits (img img' : bitmap) (d : Z) :
  0 < d -> _resize_if_needed img (Some d) = inr img' ->
  width img' <= d /\ height img' <= d.
Proof.
  intros Hd H. unfold _resize_if_needed in H. cbn [truthy] in H.
  replace (d =? 0) with false in H by (symmetry; apply Z.eqb_neq; lia).
  cbn [negb] in H.
  destruct (Z.leb_spec (Z.max (width img) (height img)) d) as [Hle | Hgt].
  - injection H as <-. lia.
  - destruct (thumbnail_down img d Hd Hgt) as (img'' & E & Hm & _).
    rewrite E in H. injection H as <-. lia.
Qed.

(** X14: the image bytes [render_image] returns are the encoding, in
    [image_format], of the decoded bitmap after [_resize_if_needed]; those
    [render_document_page] returns are the PNG encoding of the first
    bitmap the rasterizer returned, after [_resize_if_needed]. In both
    cases a positive bound is met by the encoded bitmap. *)
Theorem encoded_bitmap_is_resized (k : caps) (src : source) (mime : string)
    (n : Z) (md : option Z) (data : bytes) (tag : string) (l : list content) :
  (snd (render_image k src mime md) = inr (CImage data tag :: l) ->
   exists b img, k.(c_open) src = inr b /\ _resize_if_needed b md = inr img /\
     k.(c_save) img (image_format src mime) = inr data /\
     (forall d, md = Some d -> 0 < d -> width img <= d /\ height img <= d)) /\
  (snd (render_document_page k src n md) = inr (CImage data tag :: l) ->
   exists b rest img,
     k.(c_rasterize) src (if truthy (Some n) then Some n else None)
       (if truthy (Some n) then Some n else None) "png" = inr (b :: rest) /\
     _resize_if_needed b md = inr img /\ k.(c_save) img "PNG" = inr data /\
     (forall d, md = Some d -> 0 < d -> width img <= d /\ height img <= d)).
Proof.
  split.
  - unfold render_image. run_caps; intros H; try discriminate H.
    injection H as <- _ _.
    exists b, b0. split; [reflexivity | split; [exact E0 | split; [exact E1 |]]].
    intros d -> Hd. exact (resize_fits _ _ d Hd E0).
  - unfold render_document_page, render_document_page_body, convert_pdf_to_images.
    run_caps; intros H; try discriminate H;
      injection H as <- _ _;
      repeat match goal with Et : truthy _ = _ |- _ => rewrite Et; clear Et end;
      do 3 eexists; (split; [reflexivity | split; [eassumption | split; [eassumption |]]]);
      intros d -> Hd; eapply resize_fits; eassumption.
Qed.

Lemma encoded_bitmap_is_resized_witness :
  (exists b img, demo_caps.(c_open) (SrcBytes [Byte.x00]) = inr b /\
     _resize_if_needed b (Some 1000) = inr img /\
     demo_caps.(c_save) img (image_format (SrcBytes [Byte.x00]) "image/jpeg") = inr [Byte.x89] /\
     (forall d, Some 1000 = Some d -> 0 < d -> width img <= d /\ height img <= d)) /\
  (exists b rest img,
     demo_caps.(c_rasterize) (SrcPath "/tmp/report.pdf") (Some 2) (Some 2) "png"
       = inr (b :: rest) /\
     _resize_if_needed b (Some 1000) = inr img /\ demo_caps.(c_save) img "PNG" = inr [Byte.x89] /\
     (forall d, Some 1000 = Some d -> 0 < d -> width img <= d /\ height img <= d)).
Proof.
  split.
  - apply (proj1 (encoded_bitmap_is_resized demo_caps (SrcBytes [Byte.x00]) "image/jpeg" 2
                    (Some 1000) [Byte.x89] "jpeg" [])).
    vm_compute. reflexivity.
  - apply (proj2 (encoded_bitmap_is_resized demo_caps (SrcPath "/tmp/report.pdf") "application/pdf" 2
                    (Some 1000) [Byte.x89] "png" [CText (footer_text 2 3)])).
    vm_compute. reflexivity.
Defined.

(** ** Orientation and page-number edges *)

(** X15: resizing never turns a portrait bitmap into a landscape one or
    back: a side no longer than the other stays no longer than it. *)
Theorem resize_keeps_orientation (img img' : bitmap) (md : option Z) :
  _resize_if_needed img md = inr img' ->
  (width img <= height img -> width img' <= height img') /\
  (height img <= width img -> height img' <= width img').
Proof.
  intros H. destruct (resize_cases img img' md H) as [-> | (d & -> & Hd & Ht)]; [lia |].
  destruct (thumbnail_down img d) as (img'' & E & Hm & Hw & Hh); [lia | lia |].
  rewrite Ht in E. injection E as <-.
  pose proof (width_pos img') as [pw' Hw']. pose proof (height_pos img') as [ph' Hh'].
  split; intros Hle.
  - rewrite Z.max_r in Hw, Hh, Hd by exact Hle.
    destruct (Z.max_spec (width img') (height img')) as [[Hlt Hmx] | [Hge Hmx]]; [lia |].
    rewrite Hmx in Hm. subst d.
    assert (Hlow : (width img' - height img') * height img < height img) by
      (apply Z.abs_lt in Hh; nia).
    nia.
  - rewrite Z.max_l in Hw, Hh, Hd by exact Hle.
    destruct (Z.max_spec (width img') (height img')) as [[Hlt Hmx] | [Hge Hmx]]; [| lia].
    rewrite Hmx in Hm. subst d.
    assert (Hlow : (height img' - width img') * width img < width img) by
      (apply Z.abs_lt in Hw; nia).
    nia.
Qed.

Lemma resize_keeps_orientation_witness :
  (333 <= 1000 -> 33 <= 100) /\ (1000 <= 333 -> 100 <= 33).
Proof.
  exact (resize_keeps_orientation (Decoded 0 333 1000) (Resampled (Decoded 0 333 1000) 33 100)
           (Some 100) ltac:(vm_compute; reflexivity)).
Defined.

(** X16: a PDF whose information has no page count counts as having 0
    pages: every page from 1 on is refused without rasterizing, while page
    0 still rasterizes the whole document. *)
Theorem render_document_page_no_page_count (k : caps) (src : source) (n : Z)
    (md : option Z) :
  k.(c_pdfinfo) src = inr None ->
  (1 <= n ->
   render_document_page k src n md = ([EvPdfInfo src], inr [CText (page_error n 0)])) /\
  (exists rest, fst (render_document_page k src 0 md)
                = EvPdfInfo src :: EvRasterize src None None "png" :: rest).
Proof.
  intros Hi. unfold render_document_page, render_document_page_body, convert_pdf_to_images.
  cbn [bind catch call lift ret raise fst snd app]. rewrite Hi. cbn [pages_total].
  split.
  - intros Hn. replace (0 <? n) with true by (symmetry; apply Z.ltb_lt; lia). reflexivity.
  - cbn [Z.ltb Z.compare truthy Z.eqb negb].
    destruct (c_rasterize k src None None "png") as [e | [| b rest]];
      cbn [bind catch call lift ret raise fst snd app]; [eexists; reflexivity | eexists; reflexivity |].
    destruct (_resize_if_needed b md); cbn [bind catch call lift ret raise fst snd app];
      [eexists; reflexivity |].
    destruct (c_save k b0 "PNG"); eexists; reflexivity.
Qed.

Lemma render_document_page_no_page_count_witness :
  (1 <= 2 ->
   render_document_page countless_caps (SrcPath "/tmp/x.pdf") 2 None
   = ([EvPdfInfo (SrcPath "/tmp/x.pdf")], inr [CText (page_error 2 0)])) /\
  (exists rest, fst (render_document_page countless_caps (SrcPath "/tmp/x.pdf") 0 None)
     = EvPdfInfo (SrcPath "/tmp/x.pdf") :: EvRasterize (SrcPath "/tmp/x.pdf") None None "png" :: rest).
Proof.
  exact (render_document_page_no_page_count countless_caps (SrcPath "/tmp/x.pdf") 2 None eq_refl).
Defined.

(** X17: a negative page number passes the range check of
    [render_document_page] (it is never above the page count) and is handed
    to the rasterizer as both first and last page. *)
Theorem render_document_page_negative_page (k : caps) (src : source) (n : Z)
    (md : option Z) (info : option Z) :
  n < 0 -> k.(c_pdfinfo) src = inr info -> 0 <= pages_total info ->
  exists rest, fst (render_document_page k src n md)
               = EvPdfInfo src :: EvRasterize src (Some n) (Some n) "png" :: rest.
Proof.
  intros Hn Hi Ht. unfold render_document_page, render_document_page_body, convert_pdf_to_images.
  cbn [bind catch call lift ret raise fst snd app]. rewrite Hi.
  replace (pages_total info <? n) with false by (symmetry; apply Z.ltb_ge; lia).
  cbn [truthy]. replace (n =? 0) with false by (symmetry; apply Z.eqb_neq; lia). cbn [negb].
  destruct (c_rasterize k src (Some n) (Some n) "png") as [e | [| b rest]];
    cbn [bind catch call lift ret raise fst snd app]; [eexists; reflexivity | eexists; reflexivity |].
  destruct (_resize_if_needed b md); cbn [bind catch call lift ret raise fst snd app];
    [eexists; reflexivity |].
  destruct (c_save k b0 "PNG"); eexists; reflexivity.
Qed.

Lemma render_document_page_negative_page_witness :
  exists rest, fst (render_document_page demo_caps (SrcPath "/tmp/report.pdf") (-1) None)
    = EvPdfInfo (SrcPath "/tmp/report.pdf")
      :: EvRasterize (SrcPath "/tmp/report.pdf") (Some (-1)) (Some (-1)) "png" :: rest.
Proof.
  apply (render_document_page_negative_page demo_caps (SrcPath "/tmp/report.pdf") (-1) None (Some 3));
    [lia | reflexivity | cbn; lia].
Defined.

(** X18: [get_local_file_visual] touches no file but the one it is given:
    it opens only that path, reads text only from it, and rasterizes only
    that path or the PDF bytes converted from that path's HTML. *)
Theorem get_local_file_visual_own_file (k : caps) (path : string) (page : Z)
    (md : option Z) :
  (forall s, In (EvOpen s) (fst (get_local_file_visual k path page md)) ->
   s = SrcPath path) /\
  (forall p, In (EvReadText p) (fst (get_local_file_visual k path page md)) -> p = path) /\
  (forall s fp lp fmt,
   In (EvRasterize s fp lp fmt) (fst (get_local_file_visual k path page md)) ->
   s = SrcPath path \/
   exists html pdf, k.(c_read_text) path = inr html /\ k.(c_html_to_pdf) html = inr pdf /\
                    s = SrcBytes pdf).
Proof.
  run_dispatch k path;
    (split; [| split];
     [ intros s0 Hin
     | intros p Hin
     | intros s0 fp lp fmt Hin ];
     simpl in Hin;
     repeat (destruct Hin as [Hin | Hin];
             [ first [ discriminate Hin
                     | injection Hin as <-; reflexivity
                     | injection Hin as <- _ _ _; first [ left; reflexivity
                                                       | right; eauto ] ] |]);
     contradiction).
Qed.

(** X19: a byte buffer whose MIME type has no ['/'] is encoded as PNG and
    the image returned is tagged ["png"]. *)
Theorem render_image_bytes_without_subtype (k : caps) (b : bytes) (mime : string)
    (md : option Z) :
  contains "/" mime = false ->
  (forall fmt, In (EvSave fmt) (fst (render_image k (SrcBytes b) mime md)) -> fmt = "PNG") /\
  (forall data tag l, snd (render_image k (SrcBytes b) mime md) = inr (CImage data tag :: l) ->
   tag = "png").
Proof.
  intros Hc. unfold render_image, image_format. rewrite Hc.
  run_caps;
    (split;
     [ intros fmt Hin; simpl in Hin; intuition congruence
     | intros data tag l Hl; try discriminate Hl; injection Hl as _ <- _; reflexivity ]).
Qed.

Lemma render_image_bytes_without_subtype_witness :
  (forall fmt, In (EvSave fmt) (fst (render_image demo_caps (SrcBytes [Byte.x00]) "jpeg" None)) ->
   fmt = "PNG") /\
  (forall data tag l, snd (render_image demo_caps (SrcBytes [Byte.x00]) "jpeg" None)
                      = inr (CImage data tag :: l) -> tag = "png").
Proof.
  exact (render_image_bytes_without_subtype demo_caps [Byte.x00] "jpeg" None eq_refl).
Defined.
